(** * The black-oil box model and the transport test driver

    A shallow embedding of

    - [BlackOilModel] (ewoms/boxmodels/blackoil/blackoilmodel.hh): the naming
      and weighting of primary variables and equations, and [init];
    - [main] of test/transport/test_fvtransport.cc: the set-up of the
      reference transport run and its exception boundary;
    - the transport time loop, which the test drives but whose header
      (dumux/timedisc/timeloop.hh) is not among the sources, and which is
      modelled from its specification.

    Conventions.  C++ [int] values are integers of [Z]: every index
    computation of the model is on small compile-time constants and on slots
    that were range-checked first, so no signed overflow (undefined in C++) is
    reachable on the paths modelled; the one unguarded subtraction, in
    [eqWeight], is exact for every [eqIdx] whose distance to [conti0EqIdx] is
    representable.  [Scalar] is [double] (the default of the property system),
    modelled by the binary64 floats of the kernel.  [assert] is modelled as
    compiled in (no NDEBUG): a failed assertion aborts the call. *)

From Stdlib Require Import ZArith List String Bool Lia Floats FinFun.
From Stdlib Require Import QArith Qminmax Qabs Lqa.
Import ListNotations.

Set Warnings "-inexact-float".

Local Open Scope string_scope.
Local Open Scope Z_scope.

(** ** Outcomes of a call *)

(** What can end a call other than a return. *)
Inductive Failure : Type :=
| AssertionFailed            (* assert(...) evaluated to false *)
| OutOfRange                 (* operator[] outside the container *)
| DuneException (what : string)   (* throw of a Dune::Exception *)
| UnknownException.          (* throw of anything else *)

Inductive outcome (A : Type) : Type :=
| Returns (a : A)
| Aborts (f : Failure).

Arguments Returns {A} a.
Arguments Aborts {A} f.

Definition bind {A B : Type} (m : outcome A) (k : A -> outcome B) : outcome B :=
  match m with
  | Returns a => k a
  | Aborts f => Aborts f
  end.

Notation "x <- m ;; k" := (bind m (fun x => k))
  (at level 61, m at next level, right associativity).

Definition returned {A : Type} (m : outcome A) : bool :=
  match m with
  | Returns _ => true
  | Aborts _ => false
  end.

(** [assert(c)] *)
Definition assert (c : bool) : outcome unit :=
  if c then Returns tt else Aborts AssertionFailed.

(** ** Library pieces used by the model *)

(** [std::ostringstream]: the characters written so far. *)
Definition ostringstream : Type := string.
Definition oss_new : ostringstream := "".
Definition oss_put (oss : ostringstream) (s : string) : ostringstream :=
  String.append oss s.
Definition oss_str (oss : ostringstream) : string := oss.

Notation "oss << s" := (oss_put oss s) (at level 50, left associativity).

(** [std::min(a, b)] is [(b < a) ? b : a]. *)
Definition std_min (a b : float) : float :=
  if PrimFloat.ltb b a then b else a.

(** [std::abs] on a [double]. *)
Definition std_abs (x : float) : float := PrimFloat.abs x.

(** [v[i]] on a vector indexed by an [int]. *)
Definition at_index {A : Type} (v : list A) (i : Z) : option A :=
  if i <? 0 then None else nth_error v (Z.to_nat i).

(** The integers [lo, lo + 1, ..., lo + n - 1]. *)
Definition slots_from (lo : Z) (n : nat) : list Z :=
  map (fun k => lo + Z.of_nat k) (seq 0 n).

(** ** The properties a type tag supplies *)

(** What [BlackOilModel<TypeTag>] reads through GET_PROP_TYPE and
    GET_PROP_VALUE: the [Indices], the [FluidSystem] and [NumPhases].  Their
    declarations (blackoilproperties.hh and the fluid system) are not among
    the sources, so they are the fields of a class the model is generic in. *)
Class TypeTag : Type := {
  numPhases : Z;                  (* GET_PROP_VALUE(TypeTag, NumPhases) *)
  numComponents : Z;              (* FluidSystem::numComponents *)
  pressure0Idx : Z;               (* Indices::pressure0Idx *)
  saturation0Idx : Z;             (* Indices::saturation0Idx *)
  conti0EqIdx : Z;                (* Indices::conti0EqIdx *)
  phaseName : Z -> string;        (* FluidSystem::phaseName *)
  molarMass : Z -> float          (* FluidSystem::molarMass *)
}.

(** The index table keeps the pressure slot apart from the saturation slots
    (the mapping from quantities to slots is injective). *)
Definition indices_injective `{TypeTag} : Prop :=
  ~ (saturation0Idx <= pressure0Idx <= saturation0Idx + numPhases - 1).

(** ** The model object *)

Definition PrimaryVariables : Type := list float.
Definition SolutionVector : Type := list PrimaryVariables.

(** The part of the object and of the process the methods below read or
    write: the solution of each time level ([solution(timeIdx)], level 0 the
    current one, level 1 the previous one) and the static singular limit of
    [Dune::FMatrixPrecision<Scalar>]. *)
Record Model : Type := mkModel {
  solution_ : list SolutionVector;
  singular_limit : float
}.

(** [this->solution(timeIdx)[globalVertexIdx][pvIdx]] *)
Definition solution_entry (self : Model) (timeIdx globalVertexIdx pvIdx : Z)
  : option float :=
  match at_index (solution_ self) timeIdx with
  | None => None
  | Some sol =>
      match at_index sol globalVertexIdx with
      | None => None
      | Some priVars => at_index priVars pvIdx
      end
  end.

(** [Dune::FMatrixPrecision<Scalar>::set_singular_limit(v)] *)
Definition set_singular_limit (v : float) (self : Model) : Model :=
  mkModel (solution_ self) v.

(** Modelled from the spec: a local matrix whose pivot magnitude falls below
    the singular limit is treated as singular (the inversion is Dune's and
    not among the sources). *)
Definition treated_as_singular (self : Model) (pivot : float) : bool :=
  PrimFloat.ltb (std_abs pivot) (singular_limit self).

Module BlackOilModel.
Section Methods.

Context `{TT : TypeTag}.

(** [const char *name() const] *)
Definition name (self : Model) : string := "blackoil".

(** [std::string primaryVarName(int pvIdx) const] *)
Definition primaryVarName (self : Model) (pvIdx : Z) : outcome string :=
  let oss := oss_new in
  if pvIdx =? pressure0Idx then
    let oss := oss << "pressure_" << phaseName 0 in
    Returns (oss_str oss)
  else if (saturation0Idx <=? pvIdx) && (pvIdx <=? saturation0Idx + numPhases - 1) then
    let phaseIdx := pvIdx - saturation0Idx in
    let oss := oss << "saturation_" << phaseName phaseIdx in
    Returns (oss_str oss)
  else
    _ <- assert false ;;
    Returns (oss_str oss).

(** [std::string eqName(int eqIdx) const] *)
Definition eqName (self : Model) (eqIdx : Z) : outcome string :=
  let oss := oss_new in
  if (conti0EqIdx <=? eqIdx) && (eqIdx <? conti0EqIdx + numComponents) then
    let oss := oss << "conti_" << phaseName (eqIdx - conti0EqIdx) in
    Returns (oss_str oss)
  else
    _ <- assert false ;;
    Returns (oss_str oss).

(** [Scalar primaryVarWeight(int globalVertexIdx, int pvIdx) const] *)
Definition primaryVarWeight (self : Model) (globalVertexIdx pvIdx : Z)
  : outcome float :=
  if pvIdx =? pressure0Idx then
    match solution_entry self 1 globalVertexIdx pvIdx with
    | None => Aborts OutOfRange
    | Some pv =>
        let absPv := std_abs pv in
        Returns (std_min (1.0 / absPv)%float 1.0%float)
    end
  else Returns 1%float.

(** [Scalar eqWeight(int globalVertexIdx, int eqIdx) const] *)
Definition eqWeight (self : Model) (globalVertexIdx eqIdx : Z) : outcome float :=
  let compIdx := eqIdx - conti0EqIdx in
  _ <- assert ((0 <=? compIdx) && (compIdx <=? numPhases)) ;;
  Returns (molarMass compIdx).

(** [void init(Problem &problem)]; [ParentType::init] (BoxModel::init) is
    not among the sources and is a parameter. *)
Definition init {Problem : Type}
    (ParentType_init : Problem -> Model -> outcome Model)
    (problem : Problem) (self : Model) : outcome Model :=
  self <- ParentType_init problem self ;;
  Returns (set_singular_limit 1e-35%float self).

(** The slots of the primary variables as the class documents them: the
    pressure of the phase with the lowest index and the saturations of all
    phases but the last (two of them for the three phases of the model). *)
Definition primaryVariableSlots : list Z :=
  pressure0Idx :: slots_from saturation0Idx (Z.to_nat (numPhases - 1)).

(** The slots [primaryVarName] gives a name to. *)
Definition namedSlots : list Z :=
  pressure0Idx ::
  filter (fun s => negb (s =? pressure0Idx))
         (slots_from saturation0Idx (Z.to_nat numPhases)).

End Methods.
End BlackOilModel.

(** A three-phase, three-component instance to run the model on: the
    pressure in slot 0, the saturations from slot 1, the continuity equations
    from slot 0. *)
Definition sampleMolarMass (compIdx : Z) : float :=
  if compIdx =? 0 then 0.018%float
  else if compIdx =? 1 then 0.016%float
  else 0.175%float.

Definition samplePhaseName (phaseIdx : Z) : string :=
  if phaseIdx =? 0 then "w"
  else if phaseIdx =? 1 then "g"
  else if phaseIdx =? 2 then "o"
  else "".

#[export] Instance ThreePhase : TypeTag := {|
  numPhases := 3;
  numComponents := 3;
  pressure0Idx := 0;
  saturation0Idx := 1;
  conti0EqIdx := 0;
  phaseName := samplePhaseName;
  molarMass := sampleMolarMass
|}.

(** Two vertices, two time levels. *)
Definition sampleModel : Model :=
  mkModel [ [ [2e5; 0.25; 0.5]; [1.5e5; 0.5; 0.25] ];
            [ [4; 0.25; 0.5]; [-0.5; 0.5; 0.25] ] ]%float
          0%float.

(** ** The transport test: [main] of test_fvtransport.cc *)

Module TestFVTransport.

(** [Dune::FieldVector<T, dim> v(x)]: all [dim] entries are [x]. *)
Definition FieldVector (T : Type) : Type := list T.

Definition FieldVector_fill {T : Type} (dim : nat) (x : T) : FieldVector T :=
  repeat x dim.

(** [v[i] = x] *)
Fixpoint FieldVector_assign {T : Type} (v : FieldVector T) (i : nat) (x : T)
  : FieldVector T :=
  match v, i with
  | [], _ => []
  | _ :: rest, O => x :: rest
  | y :: rest, S j => y :: FieldVector_assign rest j x
  end.

(** The arguments of [Grid grid(N, L, H)]. *)
Record GridArgs : Type := mkGridArgs {
  grid_N : FieldVector Z;
  grid_L : FieldVector float;
  grid_H : FieldVector float
}.

(** The arguments of [VariableClass variables(gridView, initsat, velocity)]. *)
Record VariableArgs : Type := mkVariableArgs {
  var_initsat : float;
  var_velocity : FieldVector float
}.

(** The arguments of the [Dumux::TimeLoop] constructor after the grid view,
    in their order; the last two both receive [maxDT]. *)
Record TimeLoopArgs : Type := mkTimeLoopArgs {
  tl_tStart : float;
  tl_tEnd : float;
  tl_name : string;
  tl_modulo : Z;
  tl_cFLFactor : float;
  tl_maxDT : float;
  tl_maxDT' : float
}.

(** How a process ends. *)
Inductive ProcessEnd : Type :=
| Exit (status : Z)
| Aborted.                  (* abort() of a failed assertion *)

(** What is recorded of a run: on [run_stdout] the text of [printvector]
    when the [try] block completes, on [run_stderr] the report of the handler
    that caught an exception, and how the process ends.  What a collaborator
    streams before it fails, and the message of a failed assertion, are not
    recorded. *)
Record Run : Type := mkRun {
  run_stdout : string;
  run_stderr : string;
  run_end : ProcessEnd
}.

Definition endl : string := String (Ascii.ascii_of_nat 10) EmptyString.

(** The collaborators of [main] are not among the sources: the objects
    built on lines 38 to 54 (grid, fluid, soil, material law, variables,
    problem, transport), the time loop's [execute], and [printvector], which
    writes the saturation to the standard output.  Each may throw. *)
Record Collaborators : Type := mkCollaborators {
  World : Type;
  construct : GridArgs -> VariableArgs -> outcome World;
  TimeLoop_execute : TimeLoopArgs -> World -> outcome World;
  printvector : World -> outcome string
}.

(** The block of the [try]. *)
Definition main_try (c : Collaborators) : outcome (string * Z) :=
  let dim := 2%nat in
  let tStart := 0%float in
  let tEnd := 4e9%float in
  let cFLFactor := 0.99%float in
  let maxDT := 1e100%float in
  let modulo := 10 in
  let N := FieldVector_fill dim 1 in
  let N := FieldVector_assign N 0 16 in
  let L := FieldVector_fill dim 0%float in
  let H := FieldVector_fill dim 300%float in
  let H := FieldVector_assign H 0 600%float in
  let initsat := 0%float in
  let velocity := FieldVector_fill dim 0%float in
  let velocity := FieldVector_assign velocity 0 (1.0 / 6.0 * 1e-6)%float in
  world <- construct c (mkGridArgs N L H) (mkVariableArgs initsat velocity) ;;
  let timeloop :=
    mkTimeLoopArgs tStart tEnd "timeloop" modulo cFLFactor maxDT maxDT in
  world <- TimeLoop_execute c timeloop world ;;
  out <- printvector c world ;;
  Returns (out, 0).

(** [main]: the [try] block and its two handlers.  Neither handler returns,
    so after one of them control reaches the end of [main], which in C++ is
    a [return 0].  A failed assertion is no exception: it aborts the
    process past the handlers. *)
Definition main (c : Collaborators) : Run :=
  match main_try c with
  | Returns (out, status) => mkRun out "" (Exit status)
  | Aborts (DuneException e) =>
      mkRun "" ("Dune reported error: " ++ e ++ endl) (Exit 0)
  | Aborts UnknownException =>
      mkRun "" ("Unknown exception thrown!" ++ endl) (Exit 0)
  | Aborts _ => mkRun "" "" Aborted
  end.

(** An exception left the [try] block. *)
Definition threw (c : Collaborators) : Prop :=
  (exists e, main_try c = Aborts (DuneException e)) \/
  main_try c = Aborts UnknownException.

(** The [try] block ran to its [return]. *)
Definition completed (c : Collaborators) : Prop :=
  exists r, main_try c = Returns r.

(** The set-up of the reference run. *)
Definition referenceGrid : GridArgs :=
  mkGridArgs [16; 1] [0; 0]%float [600; 300]%float.

Definition referenceVariables : VariableArgs :=
  mkVariableArgs 0%float [1.0 / 6.0 * 1e-6; 0]%float.

Definition referenceTimeLoop : TimeLoopArgs :=
  mkTimeLoopArgs 0%float 4e9%float "timeloop" 10 0.99%float 1e100%float
                 1e100%float.

(** Collaborators to run [main] on: the world is the number of time loops
    executed; building it throws [fail] when there is one. *)
Definition sampleCollaborators (fail : option Failure) : Collaborators :=
  mkCollaborators nat
    (fun _ _ => match fail with
                | Some f => Aborts f
                | None => Returns 0%nat
                end)
    (fun _ w => Returns (S w))
    (fun w => Returns (if Nat.eqb w 1 then "saturation" else "")).

End TestFVTransport.

(** ** The transport time loop *)

Module TimeLoop.

Local Open Scope Q_scope.

(** Modelled from the spec: the face data the CFL computation reads (the
    transport operator, dumux/transport/fv/fvsaturation2p.hh, is missing): the
    pore volume of the control volume behind a face and the flux through
    it. *)
Record Face : Type := mkFace {
  poreVolume : Q;
  flux : Q
}.

(** Modelled from the spec: [poreVolume / |flux|] of one face (the CFL
    computation is missing); a face that carries no flux bounds nothing. *)
Definition faceLimit (f : Face) : option Q :=
  if Qeq_bool (flux f) 0 then None
  else Some (poreVolume f / Qabs (flux f)).

(** Modelled from the spec: [min_over_faces(poreVolume / |flux|)] (the CFL
    computation is missing); [None] when no face carries flux. *)
Fixpoint minOverFaces (faces : list Face) : option Q :=
  match faces with
  | [] => None
  | f :: rest =>
      match faceLimit f, minOverFaces rest with
      | None, m => m
      | Some a, None => Some a
      | Some a, Some b => Some (Qmin a b)
      end
  end.

(** Modelled from the spec: the CFL-limited candidate step size, capped by
    the configured maximum step size (dumux/timedisc/timeloop.hh is
    missing). *)
Definition candidateStep (cflFactor maxDT : Q) (faces : list Face) : Q :=
  match minOverFaces faces with
  | None => maxDT
  | Some m => Qmin (cflFactor * m) maxDT
  end.

(** Modelled from the spec: the three states of the loop
    (dumux/timedisc/timeloop.hh is missing). *)
Inductive Mode : Type :=
| RUNNING
| STEP_REJECTED
| TERMINATED.

(** Modelled from the spec: the configuration surface of the loop
    (dumux/timedisc/timeloop.hh is missing). *)
Record Config : Type := mkConfig {
  tStart : Q;
  tEnd : Q;
  modulo : nat;
  cflFactor : Q;
  maxDT : Q
}.

(** An accepted step: its size and the faces it was computed from. *)
Record Accepted : Type := mkAccepted {
  acc_step : Q;
  acc_faces : list Face
}.

Section Loop.

(** The variable state and the operators of the transport collaborator:
    the fluxes and geometry of a state, the saturation update over the whole
    grid, and whether an updated state is numerically valid. *)
Variable Vars : Type.
Variable faces : Vars -> list Face.
Variable update : Vars -> Q -> Vars.
Variable valid : Vars -> bool.

Variable cfg : Config.

(** Modelled from the spec: the time loop state [(currentTime, stepIndex,
    stepSize)] with the variable state it advances
    (dumux/timedisc/timeloop.hh is missing); [accepted] and [outputs] record
    the accepted steps and the calls of the output callback, latest
    first. *)
Record State : Type := mkState {
  mode : Mode;
  currentTime : Q;
  stepIndex : nat;
  stepSize : Q;
  vars : Vars;
  accepted : list Accepted;
  outputs : list (nat * Vars)
}.

(** Modelled from the spec: the initial state, RUNNING at [tStart]
    (dumux/timedisc/timeloop.hh is missing). *)
Definition initial (v : Vars) : State :=
  mkState RUNNING (tStart cfg) 0 0 v [] [].

(** Modelled from the spec: steps (2) and (3) of an iteration with the step
    [dt]: the update is run; a valid one is accepted (time advanced, counter
    incremented, output on every [modulo]-th accepted step and on the final
    one), an invalid one leaves the loop in STEP_REJECTED
    (dumux/timedisc/timeloop.hh is missing). *)
Definition attempt (s : State) (dt : Q) : State :=
  let v' := update (vars s) dt in
  if valid v' then
    let t' := currentTime s + dt in
    let n' := S (stepIndex s) in
    mkState RUNNING t' n' dt v'
            (mkAccepted dt (faces (vars s)) :: accepted s)
            (if (Nat.eqb (n' mod modulo cfg) 0 || Qle_bool (tEnd cfg) t')%bool
             then (n', v') :: outputs s else outputs s)
  else
    mkState STEP_REJECTED (currentTime s) (stepIndex s) dt (vars s)
            (accepted s) (outputs s).

(** Modelled from the spec: one transition of the loop
    (dumux/timedisc/timeloop.hh is missing): RUNNING ends at [tEnd] or tries
    the candidate step; STEP_REJECTED halves the step and retries. *)
Definition step (s : State) : State :=
  match mode s with
  | RUNNING =>
      if Qle_bool (tEnd cfg) (currentTime s) then
        mkState TERMINATED (currentTime s) (stepIndex s) (stepSize s) (vars s)
                (accepted s) (outputs s)
      else attempt s (candidateStep (cflFactor cfg) (maxDT cfg) (faces (vars s)))
  | STEP_REJECTED => attempt s (stepSize s / 2)
  | TERMINATED => s
  end.

(** [n] transitions from [s]. *)
Fixpoint run (n : nat) (s : State) : State :=
  match n with
  | O => s
  | S k => run k (step s)
  end.

(** The CFL bound on a step computed from [fs]. *)
Definition cfl_bounded (dt : Q) (fs : list Face) : Prop :=
  forall m, minOverFaces fs = Some m -> dt <= cflFactor cfg * m.

(** The bounds of an accepted step: the CFL bound and the maximum step
    size. *)
Definition step_bounded (a : Accepted) : Prop :=
  cfl_bounded (acc_step a) (acc_faces a) /\ acc_step a <= maxDT cfg.

(** What holds of a step size computed from the faces [fs]. *)
Definition step_ok (dt : Q) (fs : list Face) : Prop :=
  0 <= dt /\ cfl_bounded dt fs /\ dt <= maxDT cfg.

(** The invariant of the loop: every accepted step was within its bounds,
    and so is the step a rejected attempt leaves behind. *)
Definition loop_invariant (s : State) : Prop :=
  Forall (fun a => step_ok (acc_step a) (acc_faces a)) (accepted s) /\
  (mode s = STEP_REJECTED -> step_ok (stepSize s) (faces (vars s))).

End Loop.

Arguments mode {Vars} s.
Arguments currentTime {Vars} s.
Arguments stepIndex {Vars} s.
Arguments stepSize {Vars} s.
Arguments vars {Vars} s.
Arguments accepted {Vars} s.
Arguments outputs {Vars} s.

(** A loop to run: the state is one saturation, three faces, an update that
    is valid while the saturation stays at or below one. *)
Definition sampleFaces (_ : Q) : list Face :=
  [mkFace 2 1; mkFace 3 0; mkFace 1 (-4)].

Definition sampleUpdate (sat dt : Q) : Q := sat + 3 * dt.

Definition sampleValid (sat : Q) : bool := Qle_bool sat 1.

Definition sampleConfig : Config := mkConfig 0 1 2 (99 # 100) 10.

Definition sampleRun (n : nat) : State Q :=
  run Q sampleFaces sampleUpdate sampleValid sampleConfig n
      (initial Q sampleConfig 0).

End TimeLoop.

(** ** The asserting methods in either build *)

Module Build.

(** The values of an [int] of 32 bits. *)
Definition is_int (z : Z) : Prop := -2147483648 <= z <= 2147483647.

(** The [int] that holds the integer [z] modulo 2^32. *)
Definition wrap_int (z : Z) : Z := (z + 2147483648) mod 4294967296 - 2147483648.

(** [a - b] on [int]s.  Where the difference is no [int] the subtraction
    overflows, which C++ leaves undefined; the model takes what the
    two's complement subtraction of the machine gives. *)
Definition int_sub (a b : Z) : Z := wrap_int (a - b).

(** [assert(c)] by the build: with NDEBUG defined the macro expands to
    nothing and [c] is not evaluated. *)
Definition assert_in (ndebug : bool) (c : bool) : outcome unit :=
  if ndebug then Returns tt else assert c.

Section Methods.

Context `{TT : TypeTag}.

Variable ndebug : bool.

(** [std::string primaryVarName(int pvIdx) const]; the subtraction is
    reached only past the range test, where the difference is an [int]. *)
Definition primaryVarName (self : Model) (pvIdx : Z) : outcome string :=
  let oss := oss_new in
  if pvIdx =? pressure0Idx then
    let oss := oss << "pressure_" << phaseName 0 in
    Returns (oss_str oss)
  else if (saturation0Idx <=? pvIdx) && (pvIdx <=? saturation0Idx + numPhases - 1) then
    let phaseIdx := pvIdx - saturation0Idx in
    let oss := oss << "saturation_" << phaseName phaseIdx in
    Returns (oss_str oss)
  else
    _ <- assert_in ndebug false ;;
    Returns (oss_str oss).

(** [std::string eqName(int eqIdx) const] *)
Definition eqName (self : Model) (eqIdx : Z) : outcome string :=
  let oss := oss_new in
  if (conti0EqIdx <=? eqIdx) && (eqIdx <? conti0EqIdx + numComponents) then
    let oss := oss << "conti_" << phaseName (eqIdx - conti0EqIdx) in
    Returns (oss_str oss)
  else
    _ <- assert_in ndebug false ;;
    Returns (oss_str oss).

(** [Scalar eqWeight(int globalVertexIdx, int eqIdx) const]; the
    subtraction is not guarded by a range test, so it is the one of
    [int]s. *)
Definition eqWeight (self : Model) (globalVertexIdx eqIdx : Z) : outcome float :=
  let compIdx := int_sub eqIdx conti0EqIdx in
  _ <- assert_in ndebug ((0 <=? compIdx) && (compIdx <=? numPhases)) ;;
  Returns (molarMass compIdx).

End Methods.

End Build.

(** The three-phase instance with the indices shifted by two slots (the
    offset of the index table): the pressure in slot 2, the saturations from
    slot 3, the continuity equations from slot 2. *)
Definition ShiftedThreePhase : TypeTag := {|
  numPhases := 3;
  numComponents := 3;
  pressure0Idx := 2;
  saturation0Idx := 3;
  conti0EqIdx := 2;
  phaseName := samplePhaseName;
  molarMass := sampleMolarMass
|}.

(** * Properties *)

Import BlackOilModel.

(** ** Outcomes *)

Lemma Returns_inj {A : Type} (x y : A) : Returns x = Returns y -> x = y.
Proof.
  intros H.
  change (match Returns x with Returns a => a | Aborts _ => x end = y).
  rewrite H. reflexivity.
Qed.

(** ** Slots *)

Lemma In_slots_from (lo : Z) (n : nat) (x : Z) :
  In x (slots_from lo n) <-> lo <= x < lo + Z.of_nat n.
Proof.
  unfold slots_from. rewrite in_map_iff. split.
  - intros [k [Hk Hin]]. apply in_seq in Hin. lia.
  - intros Hx. exists (Z.to_nat (x - lo)). split; [lia |].
    apply in_seq. lia.
Qed.

Lemma NoDup_slots_from (lo : Z) (n : nat) : NoDup (slots_from lo n).
Proof.
  unfold slots_from. apply Injective_map_NoDup_in.
  - intros a b _ _ Hab. lia.
  - apply seq_NoDup.
Qed.

Lemma length_slots_from (lo : Z) (n : nat) : List.length (slots_from lo n) = n.
Proof.
  unfold slots_from. now rewrite length_map, length_seq.
Qed.

Lemma filter_all {A : Type} (f : A -> bool) (l : list A) :
  (forall x, In x l -> f x = true) -> filter f l = l.
Proof.
  induction l as [| a l IH]; simpl; intros Hall; [reflexivity |].
  rewrite (Hall a (or_introl eq_refl)). f_equal. apply IH.
  intros x Hx. apply Hall. now right.
Qed.

(** ** Comparisons of doubles *)

Lemma SFcompare_antisym (a b : spec_float) (c : comparison) :
  SFcompare a b = Some c -> SFcompare b a = Some (CompOpp c).
Proof.
  destruct a as [sa | sa | | sa ma ea], b as [sb | sb | | sb mb eb]; simpl;
    try discriminate;
    try (intros H; injection H as <-);
    try (destruct sa; reflexivity);
    try (destruct sb; reflexivity);
    try (destruct sa, sb; reflexivity).
  destruct sa, sb; try reflexivity;
    rewrite (Z.compare_antisym ea eb);
    destruct (ea ?= eb)%Z; simpl; try reflexivity;
    rewrite (Pos.compare_cont_antisym ma mb Eq); simpl;
    rewrite ?CompOpp_involutive; reflexivity.
Qed.

Lemma SFcompare_None (a b : spec_float) :
  SFcompare a b = None -> a = S754_nan \/ b = S754_nan.
Proof.
  destruct a, b; simpl; try discriminate; auto.
Qed.

Lemma is_nan_Prim2SF (x : float) :
  Prim2SF x = S754_nan -> PrimFloat.is_nan x = true.
Proof.
  intros H. unfold PrimFloat.is_nan. rewrite FloatAxioms.eqb_spec, H. reflexivity.
Qed.

(** Where [b < a] fails, [a <= b] holds or one of the two is a NaN. *)
Lemma not_ltb_leb (a b : float) :
  PrimFloat.ltb b a = false ->
  PrimFloat.leb a b = true \/ PrimFloat.is_nan a = true \/ PrimFloat.is_nan b = true.
Proof.
  rewrite FloatAxioms.ltb_spec, FloatAxioms.leb_spec. unfold SFltb, SFleb.
  destruct (SFcompare (Prim2SF b) (Prim2SF a)) as [c |] eqn:E.
  - rewrite (SFcompare_antisym _ _ _ E). destruct c; simpl; auto; discriminate.
  - intros _. right. destruct (SFcompare_None _ _ E) as [H | H].
    + right. now apply is_nan_Prim2SF.
    + left. now apply is_nan_Prim2SF.
Qed.

(** [std::min(x, 1)] is at most 1, or a NaN when [x] is one. *)
Lemma std_min_le_r (x : float) :
  PrimFloat.leb (std_min x 1) 1 = true \/ PrimFloat.is_nan (std_min x 1) = true.
Proof.
  unfold std_min. destruct (PrimFloat.ltb 1 x) eqn:E.
  - left. reflexivity.
  - destruct (not_ltb_leb x 1 E) as [H | [H | H]]; auto. discriminate H.
Qed.

Section BlackOilModelFacts.

Context `{TT : TypeTag}.

(** The three branches of [primaryVarName], in the order the code tests
    them, for any index table. *)
Lemma primaryVarName_cases (self : Model) (pvIdx : Z) :
  (pvIdx = pressure0Idx /\
   primaryVarName self pvIdx = Returns ("pressure_" ++ phaseName 0)%string) \/
  (pvIdx <> pressure0Idx /\
   saturation0Idx <= pvIdx <= saturation0Idx + numPhases - 1 /\
   primaryVarName self pvIdx =
     Returns ("saturation_" ++ phaseName (pvIdx - saturation0Idx))%string) \/
  (pvIdx <> pressure0Idx /\
   ~ (saturation0Idx <= pvIdx <= saturation0Idx + numPhases - 1) /\
   primaryVarName self pvIdx = Aborts AssertionFailed).
Proof.
  unfold primaryVarName.
  destruct (Z.eqb_spec pvIdx pressure0Idx) as [Heq | Hne].
  - left. split; [exact Heq | reflexivity].
  - right.
    destruct (Z.leb_spec saturation0Idx pvIdx) as [Hlo | Hlo];
      destruct (Z.leb_spec pvIdx (saturation0Idx + numPhases - 1)) as [Hhi | Hhi];
      simpl.
    + left. repeat split; auto.
    + right. repeat split; auto. lia.
    + right. repeat split; auto. lia.
    + right. repeat split; auto. lia.
Qed.

(** The slots [primaryVarName] names are those of [namedSlots]. *)
Lemma namedSlots_spec (self : Model) (pvIdx : Z) :
  In pvIdx namedSlots <-> returned (primaryVarName self pvIdx) = true.
Proof.
  unfold namedSlots. simpl. rewrite filter_In, In_slots_from, negb_true_iff, Z.eqb_neq.
  destruct (primaryVarName_cases self pvIdx)
    as [[Hp Hr] | [[Hn [Hs Hr]] | [Hn [Hs Hr]]]]; rewrite Hr; simpl.
  - split; auto.
  - split; auto. intros _. right. split; [lia | exact Hn].
  - split; [| discriminate]. intros [Hp | [Hin _]]; [congruence |].
    exfalso. apply Hs. lia.
Qed.

Lemma namedSlots_NoDup : NoDup namedSlots.
Proof.
  unfold namedSlots. constructor.
  - rewrite filter_In, negb_true_iff, Z.eqb_neq. tauto.
  - apply NoDup_filter, NoDup_slots_from.
Qed.

(** With the pressure slot outside the saturation range, one slot more is
    named than there are phases. *)
Lemma namedSlots_length :
  indices_injective -> 0 <= numPhases ->
  List.length namedSlots = S (Z.to_nat numPhases).
Proof.
  intros Hinj Hn. unfold namedSlots. simpl. f_equal.
  rewrite filter_all; [apply length_slots_from |].
  intros x Hx. apply In_slots_from in Hx.
  apply negb_true_iff, Z.eqb_neq. intros ->. apply Hinj. lia.
Qed.

Lemma primaryVariableSlots_length :
  1 <= numPhases -> List.length primaryVariableSlots = Z.to_nat numPhases.
Proof.
  intros Hn. unfold primaryVariableSlots. simpl. rewrite length_slots_from. lia.
Qed.

(** The last slot of the range the code accepts is no primary variable. *)
Lemma last_named_slot_not_primary :
  indices_injective -> 1 <= numPhases ->
  In (saturation0Idx + numPhases - 1) namedSlots /\
  ~ In (saturation0Idx + numPhases - 1) primaryVariableSlots.
Proof.
  intros Hinj Hn. split.
  - unfold namedSlots. right. rewrite filter_In, In_slots_from, negb_true_iff, Z.eqb_neq.
    split; [lia |]. intros Heq. apply Hinj. lia.
  - unfold primaryVariableSlots. intros [Heq | Hin].
    + apply Hinj. lia.
    + apply In_slots_from in Hin. lia.
Qed.

(** C1: for every slot, [primaryVarName] returns "pressure_" followed by the
    name of phase 0 on the pressure slot, "saturation_" followed by the name
    of phase [pvIdx - saturation0Idx] on a slot of the inclusive range
    [saturation0Idx, saturation0Idx + numPhases - 1], and fails on the
    assertion for every other slot.  The index table keeps the pressure slot
    out of the saturation range. *)
Theorem primaryVarName_spec (Hinj : indices_injective) (self : Model) (pvIdx : Z) :
  (pvIdx = pressure0Idx ->
   primaryVarName self pvIdx = Returns ("pressure_" ++ phaseName 0)%string) /\
  (saturation0Idx <= pvIdx <= saturation0Idx + numPhases - 1 ->
   primaryVarName self pvIdx =
     Returns ("saturation_" ++ phaseName (pvIdx - saturation0Idx))%string) /\
  (pvIdx <> pressure0Idx ->
   ~ (saturation0Idx <= pvIdx <= saturation0Idx + numPhases - 1) ->
   primaryVarName self pvIdx = Aborts AssertionFailed).
Proof.
  destruct (primaryVarName_cases self pvIdx)
    as [[Hp Hr] | [[Hn [Hs Hr]] | [Hn [Hs Hr]]]]; repeat split; intros; try tauto.
  - exfalso. apply Hinj. subst pvIdx. assumption.
Qed.

(** C2: for every equation slot, [eqName] returns "conti_" followed by the
    phase name of index [eqIdx - conti0EqIdx] when [eqIdx] lies in the
    half-open range [conti0EqIdx, conti0EqIdx + numComponents), and fails on
    the assertion for every other slot. *)
Theorem eqName_spec (self : Model) (eqIdx : Z) :
  (conti0EqIdx <= eqIdx < conti0EqIdx + numComponents ->
   eqName self eqIdx =
     Returns ("conti_" ++ phaseName (eqIdx - conti0EqIdx))%string) /\
  (~ (conti0EqIdx <= eqIdx < conti0EqIdx + numComponents) ->
   eqName self eqIdx = Aborts AssertionFailed).
Proof.
  unfold eqName.
  destruct (Z.leb_spec conti0EqIdx eqIdx) as [Hlo | Hlo];
    destruct (Z.ltb_spec eqIdx (conti0EqIdx + numComponents)) as [Hhi | Hhi];
    simpl; split; intros H; try reflexivity; lia.
Qed.

(** C3: [primaryVarWeight] returns [min(1/|p|, 1)] on the pressure slot,
    [p] being the pressure stored for the vertex in the solution of time
    index 1, and exactly 1 on every other slot, whatever the vertex and the
    solution. *)
Theorem primaryVarWeight_spec (self : Model) (globalVertexIdx pvIdx : Z) :
  (pvIdx = pressure0Idx ->
   forall p : float,
     solution_entry self 1 globalVertexIdx pressure0Idx = Some p ->
     primaryVarWeight self globalVertexIdx pvIdx =
       Returns (std_min (1 / std_abs p)%float 1%float)) /\
  (pvIdx <> pressure0Idx ->
   primaryVarWeight self globalVertexIdx pvIdx = Returns 1%float).
Proof.
  unfold primaryVarWeight. split.
  - intros -> p Hp. rewrite Z.eqb_refl, Hp. reflexivity.
  - intros Hne. apply Z.eqb_neq in Hne. now rewrite Hne.
Qed.

(** No weight of a primary variable exceeds 1 (or it is a NaN, as the
    pressure it was computed from). *)
Lemma primaryVarWeight_at_most_one (self : Model) (globalVertexIdx pvIdx : Z)
    (w : float) :
  primaryVarWeight self globalVertexIdx pvIdx = Returns w ->
  PrimFloat.leb w 1 = true \/ PrimFloat.is_nan w = true.
Proof.
  unfold primaryVarWeight.
  destruct (pvIdx =? pressure0Idx).
  - destruct (solution_entry self 1 globalVertexIdx pvIdx) as [p |];
      [| discriminate].
    intros H.
    assert (Hw : w = std_min (1 / std_abs p)%float 1%float).
    { change (match Returns w with Returns a => a | Aborts _ => w end =
              std_min (1 / std_abs p)%float 1%float).
      rewrite <- H. reflexivity. }
    rewrite Hw. apply std_min_le_r.
  - intros H.
    assert (Hw : w = 1%float).
    { change (match Returns w with Returns a => a | Aborts _ => w end = 1%float).
      rewrite <- H. reflexivity. }
    rewrite Hw. left. reflexivity.
Qed.

(** C4: [eqWeight] returns [molarMass(compIdx)], [compIdx] being
    [eqIdx - conti0EqIdx], whenever [0 <= compIdx <= numPhases], and fails on
    the assertion whenever [compIdx] is outside of that range. *)
Theorem eqWeight_spec (self : Model) (globalVertexIdx eqIdx : Z) :
  (0 <= eqIdx - conti0EqIdx <= numPhases ->
   eqWeight self globalVertexIdx eqIdx = Returns (molarMass (eqIdx - conti0EqIdx))) /\
  (~ (0 <= eqIdx - conti0EqIdx <= numPhases) ->
   eqWeight self globalVertexIdx eqIdx = Aborts AssertionFailed).
Proof.
  unfold eqWeight.
  destruct (Z.leb_spec 0 (eqIdx - conti0EqIdx)) as [Hlo | Hlo];
    destruct (Z.leb_spec (eqIdx - conti0EqIdx) numPhases) as [Hhi | Hhi];
    simpl; split; intros H; try reflexivity; lia.
Qed.

End BlackOilModelFacts.

Lemma ThreePhase_injective : indices_injective (H := ThreePhase).
Proof.
  unfold indices_injective. simpl. lia.
Defined.

Lemma primaryVarName_spec_witness :
  primaryVarName (TT := ThreePhase) sampleModel 0 = Returns "pressure_w" /\
  primaryVarName (TT := ThreePhase) sampleModel 3 = Returns "saturation_o" /\
  primaryVarName (TT := ThreePhase) sampleModel 4 = Aborts AssertionFailed.
Proof.
  split; [| split].
  - apply (proj1 (primaryVarName_spec ThreePhase_injective sampleModel 0)).
    reflexivity.
  - apply (proj1 (proj2 (primaryVarName_spec ThreePhase_injective sampleModel 3))).
    simpl. lia.
  - apply (proj2 (proj2 (primaryVarName_spec ThreePhase_injective sampleModel 4)));
      simpl; lia.
Defined.

Lemma eqName_spec_witness :
  eqName (TT := ThreePhase) sampleModel 2 = Returns "conti_o" /\
  eqName (TT := ThreePhase) sampleModel 3 = Aborts AssertionFailed.
Proof.
  split.
  - apply (proj1 (eqName_spec (TT := ThreePhase) sampleModel 2)). simpl. lia.
  - apply (proj2 (eqName_spec (TT := ThreePhase) sampleModel 3)). simpl. lia.
Defined.

Lemma primaryVarWeight_spec_witness :
  primaryVarWeight (TT := ThreePhase) sampleModel 0 0 = Returns 0.25%float /\
  primaryVarWeight (TT := ThreePhase) sampleModel 1 0 = Returns 1%float /\
  primaryVarWeight (TT := ThreePhase) sampleModel 1 2 = Returns 1%float.
Proof.
  split; [| split].
  - exact (proj1 (primaryVarWeight_spec (TT := ThreePhase) sampleModel 0 0)
                 eq_refl 4%float eq_refl).
  - exact (proj1 (primaryVarWeight_spec (TT := ThreePhase) sampleModel 1 0)
                 eq_refl (-0.5)%float eq_refl).
  - apply (proj2 (primaryVarWeight_spec (TT := ThreePhase) sampleModel 1 2)).
    simpl. lia.
Defined.

Lemma eqWeight_spec_witness :
  eqWeight (TT := ThreePhase) sampleModel 0 3 = Returns 0.175%float /\
  eqWeight (TT := ThreePhase) sampleModel 0 4 = Aborts AssertionFailed.
Proof.
  split.
  - apply (proj1 (eqWeight_spec (TT := ThreePhase) sampleModel 0 3)). simpl. lia.
  - apply (proj2 (eqWeight_spec (TT := ThreePhase) sampleModel 0 4)). simpl. lia.
Defined.

(** The weight of the pressure slot on a few previous pressures: a large one
    is scaled down by its magnitude, one below 1 in magnitude and a zero one
    (where [1/|p|] is infinite) give 1, and a NaN stays a NaN, [std::min]
    returning its first argument when the comparison fails. *)
Lemma pressure_weight_values :
  std_min (1 / std_abs 2e5)%float 1%float = 5e-6%float /\
  std_min (1 / std_abs (-4))%float 1%float = 0.25%float /\
  std_min (1 / std_abs 0.5)%float 1%float = 1%float /\
  std_min (1 / std_abs 0)%float 1%float = 1%float /\
  PrimFloat.is_nan (std_min (1 / std_abs nan)%float 1%float) = true.
Proof.
  repeat split; reflexivity.
Qed.

(** C5 on the three-phase instance: the class documents three primary
    variables (one pressure, two saturations, slots 0 to 2), and
    [primaryVarName] names a fourth slot, slot 3, instead of failing on
    it. *)
Theorem primaryVarName_names_extra_slot :
  primaryVariableSlots (TT := ThreePhase) = [0; 1; 2] /\
  namedSlots (TT := ThreePhase) = [0; 1; 2; 3] /\
  (forall pvIdx,
     In pvIdx [0; 1; 2; 3] <->
     returned (primaryVarName (TT := ThreePhase) sampleModel pvIdx) = true) /\
  primaryVarName (TT := ThreePhase) sampleModel 3 = Returns "saturation_o" /\
  ~ In 3 (primaryVariableSlots (TT := ThreePhase)).
Proof.
  split; [reflexivity |]. split; [reflexivity |]. split; [| split].
  - intros pvIdx. apply (namedSlots_spec (TT := ThreePhase) sampleModel pvIdx).
  - reflexivity.
  - simpl. lia.
Qed.

(** C10: [eqWeight] depends neither on the vertex nor on the state of the
    model: for a fixed [eqIdx] it is the same for any two vertices and any
    two models, and what it returns is the molar mass of the index
    [eqIdx - conti0EqIdx], which it returns on both whenever that index
    passes the assertion; [primaryVarWeight] on the pressure slot is not
    independent, it differs between the two vertices of the sample model. *)
Theorem eqWeight_independent :
  (forall (TT : TypeTag) (self self' : Model) (v v' eqIdx : Z),
     eqWeight self v eqIdx = eqWeight self' v' eqIdx /\
     (0 <= eqIdx - conti0EqIdx <= numPhases ->
      eqWeight self v eqIdx = Returns (molarMass (eqIdx - conti0EqIdx)) /\
      eqWeight self' v' eqIdx = Returns (molarMass (eqIdx - conti0EqIdx))) /\
     (forall w, eqWeight self v eqIdx = Returns w ->
                w = molarMass (eqIdx - conti0EqIdx) /\
                eqWeight self' v' eqIdx = Returns w)) /\
  primaryVarWeight (TT := ThreePhase) sampleModel 0 0 <>
  primaryVarWeight (TT := ThreePhase) sampleModel 1 0.
Proof.
  split.
  - intros TT self self' v v' eqIdx. unfold eqWeight.
    destruct (Z.leb_spec 0 (eqIdx - conti0EqIdx)) as [Hlo | Hlo];
      destruct (Z.leb_spec (eqIdx - conti0EqIdx) numPhases) as [Hhi | Hhi];
      simpl; (split; [reflexivity |]); split;
      try (intros H; exfalso; lia);
      try (intros w H; discriminate H).
    + intros _. split; reflexivity.
    + intros w H. apply Returns_inj in H. subst w. split; reflexivity.
  - intros H.
    apply (f_equal (fun o => match o with
                             | Returns w => PrimFloat.ltb w 1
                             | Aborts _ => false
                             end)) in H.
    vm_compute in H. discriminate H.
Qed.

Lemma eqWeight_independent_witness :
  eqWeight (TT := ThreePhase) sampleModel 0 1 = Returns 0.016%float /\
  eqWeight (TT := ThreePhase) (mkModel [] 1%float) 7 1 = Returns 0.016%float.
Proof.
  apply (proj1 (proj2 (proj1 eqWeight_independent ThreePhase sampleModel
                         (mkModel [] 1%float) 0 7 1))).
  simpl. lia.
Defined.

(** C8: when [init] completes, the singular limit is exactly 1e-35, so a
    pivot is treated as singular exactly when its magnitude is below 1e-35;
    and [init] completes whenever the initialisation of the base model
    does. *)
Theorem init_sets_singular_limit {Problem : Type}
    (ParentType_init : Problem -> Model -> outcome Model)
    (problem : Problem) (self : Model) :
  (forall self', init ParentType_init problem self = Returns self' ->
     singular_limit self' = 1e-35%float /\
     forall pivot, treated_as_singular self' pivot =
                   PrimFloat.ltb (std_abs pivot) 1e-35%float) /\
  (forall self1, ParentType_init problem self = Returns self1 ->
     init ParentType_init problem self =
       Returns (set_singular_limit 1e-35%float self1)).
Proof.
  unfold init. split.
  - intros self' H. destruct (ParentType_init problem self) as [self1 | f];
      simpl in H; [| discriminate H].
    injection H as <-. split; [reflexivity |]. intros pivot. reflexivity.
  - intros self1 H. rewrite H. reflexivity.
Qed.

Lemma init_sets_singular_limit_witness :
  singular_limit (set_singular_limit 1e-35%float sampleModel) = 1e-35%float /\
  treated_as_singular (set_singular_limit 1e-35%float sampleModel) 1e-36%float = true /\
  treated_as_singular (set_singular_limit 1e-35%float sampleModel) (-1e-34)%float = false.
Proof.
  pose proof (proj1 (init_sets_singular_limit (Problem := unit)
                       (fun _ m => Returns m) tt sampleModel)
                    (set_singular_limit 1e-35%float sampleModel) eq_refl) as [H1 H2].
  split; [exact H1 |]. split; rewrite H2; reflexivity.
Defined.

(** ** Names and weights across the methods *)

Lemma append_cancel_l (p a b : string) :
  (p ++ a)%string = (p ++ b)%string -> a = b.
Proof.
  induction p as [| c p IH]; simpl; intros H; [exact H |].
  injection H as H. exact (IH H).
Qed.

(** [std::abs] of a double and of its negation agree. *)
Lemma std_abs_opp (x : float) : std_abs (- x)%float = std_abs x.
Proof.
  unfold std_abs. apply FloatAxioms.Prim2SF_inj.
  rewrite !FloatAxioms.abs_spec, FloatAxioms.opp_spec.
  destruct (Prim2SF x); reflexivity.
Qed.

(** [wrap_int] on an [int], and one period below and above. *)
Lemma wrap_int_cases (z : Z) :
  (Build.is_int z -> Build.wrap_int z = z) /\
  (-6442450944 <= z < -2147483648 -> Build.wrap_int z = z + 4294967296) /\
  (2147483647 < z <= 6442450943 -> Build.wrap_int z = z - 4294967296).
Proof.
  unfold Build.is_int, Build.wrap_int.
  repeat split; intros H; Z.div_mod_to_equations; lia.
Qed.

Section NamingFacts.

Context `{TT : TypeTag}.

(** Where [eqName] returns, the slot is in its range. *)
Lemma eqName_returns_range (self : Model) (eqIdx : Z) (n : string) :
  eqName self eqIdx = Returns n ->
  conti0EqIdx <= eqIdx < conti0EqIdx + numComponents /\
  n = ("conti_" ++ phaseName (eqIdx - conti0EqIdx))%string.
Proof.
  unfold eqName.
  destruct (Z.leb_spec conti0EqIdx eqIdx) as [Hlo | Hlo];
    destruct (Z.ltb_spec eqIdx (conti0EqIdx + numComponents)) as [Hhi | Hhi];
    simpl; intros H; try discriminate H.
  apply Returns_inj in H. split; [lia | now symmetry].
Qed.

(** Distinct slots that [primaryVarName] names get distinct names, when
    the phases of the fluid system have distinct names. *)
Theorem primaryVarName_injective
    (Hname : forall i j, 0 <= i < numPhases -> 0 <= j < numPhases ->
                         phaseName i = phaseName j -> i = j)
    (self : Model) (a b : Z) (n : string) :
  primaryVarName self a = Returns n ->
  primaryVarName self b = Returns n ->
  a = b.
Proof.
  intros Ha Hb.
  destruct (primaryVarName_cases self a)
    as [[Hpa Hra] | [[Hna [Hsa Hra]] | [Hna [Hsa Hra]]]];
    rewrite Hra in Ha; try discriminate Ha;
    destruct (primaryVarName_cases self b)
      as [[Hpb Hrb] | [[Hnb [Hsb Hrb]] | [Hnb [Hsb Hrb]]]];
    rewrite Hrb in Hb; try discriminate Hb;
    apply Returns_inj in Ha; apply Returns_inj in Hb; subst n.
  - congruence.
  - simpl in Hb. discriminate Hb.
  - simpl in Hb. discriminate Hb.
  - apply (append_cancel_l "saturation_") in Hb.
    apply Hname in Hb; lia.
Qed.

(** Distinct slots that [eqName] names get distinct names, when the first
    [numComponents] names of the fluid system are distinct. *)
Theorem eqName_injective
    (Hname : forall i j, 0 <= i < numComponents -> 0 <= j < numComponents ->
                         phaseName i = phaseName j -> i = j)
    (self : Model) (a b : Z) (n : string) :
  eqName self a = Returns n ->
  eqName self b = Returns n ->
  a = b.
Proof.
  intros Ha Hb.
  apply eqName_returns_range in Ha. destruct Ha as [Hra Hna].
  apply eqName_returns_range in Hb. destruct Hb as [Hrb Hnb].
  rewrite Hna in Hnb. apply (append_cancel_l "conti_") in Hnb.
  apply Hname in Hnb; lia.
Qed.

(** No primary variable shares its name with an equation. *)
Theorem names_never_collide (self : Model) (pvIdx eqIdx : Z) (n m : string) :
  primaryVarName self pvIdx = Returns n ->
  eqName self eqIdx = Returns m ->
  n <> m.
Proof.
  intros Hn Hm Heq. subst m.
  apply eqName_returns_range in Hm. destruct Hm as [_ Hm].
  destruct (primaryVarName_cases self pvIdx)
    as [[_ Hr] | [[_ [_ Hr]] | [_ [_ Hr]]]];
    rewrite Hr in Hn; try discriminate Hn;
    apply Returns_inj in Hn; rewrite <- Hn in Hm; simpl in Hm; discriminate Hm.
Qed.

(** Every slot [eqName] names has a weight, the molar mass of the index
    named, when there is at most one component more than there are
    phases. *)
Theorem eqName_named_implies_weighted
    (Hcomp : numComponents <= numPhases + 1)
    (self : Model) (globalVertexIdx eqIdx : Z) (n : string) :
  eqName self eqIdx = Returns n ->
  eqWeight self globalVertexIdx eqIdx = Returns (molarMass (eqIdx - conti0EqIdx)).
Proof.
  intros Hn. apply eqName_returns_range in Hn. destruct Hn as [Hr _].
  unfold eqWeight.
  destruct (Z.leb_spec 0 (eqIdx - conti0EqIdx));
    destruct (Z.leb_spec (eqIdx - conti0EqIdx) numPhases);
    simpl; try reflexivity; lia.
Qed.

(** The assertion of [eqWeight] lets one slot through that [eqName] does
    not name, the one [numPhases] past [conti0EqIdx], when there are no more
    components than phases: [molarMass] is then called with the index
    [numPhases]. *)
Theorem eqWeight_accepts_unnamed_slot
    (Hphases : 0 <= numPhases) (Hcomp : numComponents <= numPhases)
    (self : Model) (globalVertexIdx : Z) :
  eqName self (conti0EqIdx + numPhases) = Aborts AssertionFailed /\
  eqWeight self globalVertexIdx (conti0EqIdx + numPhases) =
    Returns (molarMass numPhases).
Proof.
  unfold eqName, eqWeight.
  replace (conti0EqIdx + numPhases - conti0EqIdx) with numPhases by lia.
  split.
  - destruct (Z.ltb_spec (conti0EqIdx + numPhases) (conti0EqIdx + numComponents));
      [lia |].
    rewrite andb_false_r. reflexivity.
  - destruct (Z.leb_spec 0 numPhases); [| lia].
    rewrite Z.leb_refl. reflexivity.
Qed.

(** The weight of the pressure slot depends on the magnitude of the
    previous pressure only: a pressure and its negation weigh the same. *)
Theorem primaryVarWeight_sign_invariant
    (self self' : Model) (v v' : Z) (p : float) :
  solution_entry self 1 v pressure0Idx = Some p ->
  solution_entry self' 1 v' pressure0Idx = Some (- p)%float ->
  primaryVarWeight self v pressure0Idx = primaryVarWeight self' v' pressure0Idx.
Proof.
  intros Hp Hn. unfold primaryVarWeight.
  rewrite Z.eqb_refl, Hp, Hn, std_abs_opp. reflexivity.
Qed.

(** With NDEBUG no method fails on an assertion: [primaryVarName] and
    [eqName] return the names of the checked build where that one returns
    and the empty string where it fails, and [eqWeight] hands the [int]
    difference of [eqIdx] and [conti0EqIdx] to [molarMass] unchecked: the
    difference itself where that is an [int], the wrapped one where the
    subtraction overflows.  Without NDEBUG the naming methods are those of
    the checked build, and so is [eqWeight] on [int]s when
    [numPhases + conti0EqIdx] stays below 2^31, a wrapped difference then
    failing the assertion as the exact one does. *)
Theorem ndebug_methods (self : Model) (v idx : Z) :
  (forall n, primaryVarName self idx = Returns n ->
             Build.primaryVarName true self idx = Returns n) /\
  (primaryVarName self idx = Aborts AssertionFailed ->
   Build.primaryVarName true self idx = Returns "") /\
  (forall n, eqName self idx = Returns n ->
             Build.eqName true self idx = Returns n) /\
  (eqName self idx = Aborts AssertionFailed ->
   Build.eqName true self idx = Returns "") /\
  Build.eqWeight true self v idx =
    Returns (molarMass (Build.int_sub idx conti0EqIdx)) /\
  (Build.is_int (idx - conti0EqIdx) ->
   Build.eqWeight true self v idx = Returns (molarMass (idx - conti0EqIdx))) /\
  (Build.is_int idx -> Build.is_int conti0EqIdx -> idx - conti0EqIdx < -2147483648 ->
   Build.eqWeight true self v idx =
     Returns (molarMass (idx - conti0EqIdx + 4294967296))) /\
  Build.primaryVarName false self idx = primaryVarName self idx /\
  Build.eqName false self idx = eqName self idx /\
  (Build.is_int idx -> Build.is_int conti0EqIdx -> Build.is_int numPhases ->
   numPhases + conti0EqIdx < 2147483648 ->
   Build.eqWeight false self v idx = eqWeight self v idx).
Proof.
  unfold primaryVarName, eqName, eqWeight, Build.primaryVarName, Build.eqName,
    Build.eqWeight, Build.int_sub.
  repeat split; try reflexivity.
  - intros n. destruct (idx =? pressure0Idx); [auto |].
    destruct ((saturation0Idx <=? idx) && (idx <=? saturation0Idx + numPhases - 1));
      [auto | discriminate].
  - destruct (idx =? pressure0Idx); [discriminate |].
    destruct ((saturation0Idx <=? idx) && (idx <=? saturation0Idx + numPhases - 1));
      [discriminate | reflexivity].
  - intros n.
    destruct ((conti0EqIdx <=? idx) && (idx <? conti0EqIdx + numComponents));
      [auto | discriminate].
  - destruct ((conti0EqIdx <=? idx) && (idx <? conti0EqIdx + numComponents));
      [discriminate | reflexivity].
  - intros Hd. rewrite (proj1 (wrap_int_cases _) Hd). reflexivity.
  - unfold Build.is_int. intros Hi Hc Hd.
    rewrite (proj1 (proj2 (wrap_int_cases _))) by lia. reflexivity.
  - unfold Build.is_int. intros Hi Hc Hn Hsum.
    destruct (Z_lt_le_dec (idx - conti0EqIdx) (-2147483648)) as [Hlow | Hlow];
      [| destruct (Z_lt_le_dec 2147483647 (idx - conti0EqIdx)) as [Hhigh | Hhigh]].
    + rewrite (proj1 (proj2 (wrap_int_cases _))) by lia. simpl.
      destruct (Z.leb_spec 0 (idx - conti0EqIdx)); [lia |].
      destruct (Z.leb_spec (idx - conti0EqIdx + 4294967296) numPhases); [lia |].
      rewrite andb_false_r. reflexivity.
    + rewrite (proj2 (proj2 (wrap_int_cases _))) by lia. simpl.
      destruct (Z.leb_spec 0 (idx - conti0EqIdx - 4294967296)); [lia |].
      destruct (Z.leb_spec (idx - conti0EqIdx) numPhases); [lia |].
      rewrite andb_false_r. reflexivity.
    + rewrite (proj1 (wrap_int_cases _)) by (unfold Build.is_int; lia).
      reflexivity.
Qed.

(** A slot that [primaryVarName] names as a saturation has the weight 1,
    whatever the vertex and the solution. *)
Theorem saturation_slots_weigh_one
    (self : Model) (globalVertexIdx pvIdx : Z) (phase : string) :
  primaryVarName self pvIdx = Returns ("saturation_" ++ phase)%string ->
  primaryVarWeight self globalVertexIdx pvIdx = Returns 1%float.
Proof.
  intros Hn.
  destruct (primaryVarName_cases self pvIdx)
    as [[_ Hr] | [[Hne [_ Hr]] | [_ [_ Hr]]]];
    rewrite Hr in Hn; try discriminate Hn.
  unfold primaryVarWeight. apply Z.eqb_neq in Hne. now rewrite Hne.
Qed.

(** The weight of the pressure slot at the edges of the doubles: a zero
    previous pressure, of either sign, gives the weight 1 (the quotient is
    infinite and [std::min] takes the 1), an infinite one gives the weight 0,
    and a NaN gives a NaN. *)
Theorem primaryVarWeight_edge_pressures
    (self : Model) (globalVertexIdx : Z) (p : float) :
  solution_entry self 1 globalVertexIdx pressure0Idx = Some p ->
  (p = 0%float \/ p = (-0)%float ->
   primaryVarWeight self globalVertexIdx pressure0Idx = Returns 1%float) /\
  (p = infinity \/ p = neg_infinity ->
   primaryVarWeight self globalVertexIdx pressure0Idx = Returns 0%float) /\
  (p = nan ->
   primaryVarWeight self globalVertexIdx pressure0Idx = Returns nan).
Proof.
  intros Hp. unfold primaryVarWeight. rewrite Z.eqb_refl, Hp.
  split; [| split].
  - intros [-> | ->]; reflexivity.
  - intros [-> | ->]; reflexivity.
  - intros ->. reflexivity.
Qed.

(** [init] passes on what the initialisation of the base model does: it
    fails exactly when that one fails, with the same failure, and where it
    returns the solution is the one the base model left. *)
Theorem init_follows_parent {Problem : Type}
    (ParentType_init : Problem -> Model -> outcome Model)
    (problem : Problem) (self : Model) :
  (forall f, init ParentType_init problem self = Aborts f <->
             ParentType_init problem self = Aborts f) /\
  (forall self', init ParentType_init problem self = Returns self' ->
     exists self1, ParentType_init problem self = Returns self1 /\
                   solution_ self' = solution_ self1).
Proof.
  unfold init.
  destruct (ParentType_init problem self) as [self1 | g]; simpl; split.
  - intros f. split; discriminate.
  - intros self' H. apply Returns_inj in H. subst self'.
    exists self1. split; reflexivity.
  - intros f. split; intros H; exact H.
  - discriminate.
Qed.

End NamingFacts.

Lemma samplePhaseName_injective (i j : Z) :
  0 <= i < 3 -> 0 <= j < 3 -> samplePhaseName i = samplePhaseName j -> i = j.
Proof.
  intros Hi Hj.
  assert (Ei : i = 0 \/ i = 1 \/ i = 2) by lia.
  assert (Ej : j = 0 \/ j = 1 \/ j = 2) by lia.
  destruct Ei as [-> | [-> | ->]]; destruct Ej as [-> | [-> | ->]];
    simpl; intros H; try reflexivity; discriminate H.
Defined.

Lemma primaryVarName_injective_witness :
  primaryVarName (TT := ThreePhase) sampleModel 3 = Returns "saturation_o" /\
  3 = 3.
Proof.
  split; [reflexivity |].
  apply (primaryVarName_injective (TT := ThreePhase) samplePhaseName_injective
           sampleModel 3 3 "saturation_o"); reflexivity.
Defined.

Lemma eqName_injective_witness :
  eqName (TT := ThreePhase) sampleModel 1 = Returns "conti_g" /\ 1 = 1.
Proof.
  split; [reflexivity |].
  apply (eqName_injective (TT := ThreePhase) samplePhaseName_injective
           sampleModel 1 1 "conti_g"); reflexivity.
Defined.

Lemma names_never_collide_witness : "pressure_w" <> "conti_w".
Proof.
  apply (names_never_collide (TT := ThreePhase) sampleModel 0 0); reflexivity.
Defined.

Lemma eqName_named_implies_weighted_witness :
  eqWeight (TT := ThreePhase) sampleModel 1 2 = Returns 0.175%float.
Proof.
  apply (eqName_named_implies_weighted (TT := ThreePhase)) with (n := "conti_o").
  - simpl. lia.
  - reflexivity.
Defined.

Lemma eqWeight_accepts_unnamed_slot_witness :
  eqName (TT := ThreePhase) sampleModel 3 = Aborts AssertionFailed /\
  eqWeight (TT := ThreePhase) sampleModel 0 3 = Returns 0.175%float.
Proof.
  apply (eqWeight_accepts_unnamed_slot (TT := ThreePhase)); simpl; lia.
Defined.

Lemma primaryVarWeight_sign_invariant_witness :
  primaryVarWeight (TT := ThreePhase) (mkModel [[]; [[4]]]%float 0%float) 0 0 =
  primaryVarWeight (TT := ThreePhase) (mkModel [[]; [[-4]]]%float 0%float) 0 0.
Proof.
  apply (primaryVarWeight_sign_invariant (TT := ThreePhase)) with (p := 4%float);
    reflexivity.
Defined.

Lemma primaryVarWeight_at_most_one_witness :
  PrimFloat.leb 0.25 1 = true \/ PrimFloat.is_nan 0.25 = true.
Proof.
  apply (primaryVarWeight_at_most_one (TT := ThreePhase) sampleModel 0 0).
  reflexivity.
Defined.

Lemma saturation_slots_weigh_one_witness :
  primaryVarWeight (TT := ThreePhase) sampleModel 0 2 = Returns 1%float.
Proof.
  apply (saturation_slots_weigh_one (TT := ThreePhase) sampleModel 0 2 "g").
  reflexivity.
Defined.

Lemma primaryVarWeight_edge_pressures_witness :
  primaryVarWeight (TT := ThreePhase) (mkModel [[]; [[-0]]]%float 0%float) 0 0 =
    Returns 1%float.
Proof.
  apply (proj1 (primaryVarWeight_edge_pressures (TT := ThreePhase)
                  (mkModel [[]; [[-0]]]%float 0%float) 0 (-0)%float eq_refl)).
  right. reflexivity.
Defined.

Lemma init_follows_parent_witness :
  init (Problem := unit) (fun _ _ => Aborts (DuneException "grid")) tt sampleModel =
    Aborts (DuneException "grid").
Proof.
  apply (proj1 (init_follows_parent (Problem := unit)
                  (fun _ _ => Aborts (DuneException "grid")) tt sampleModel)).
  reflexivity.
Defined.

Lemma ndebug_methods_witness :
  Build.primaryVarName (TT := ThreePhase) true sampleModel 7 = Returns "" /\
  Build.eqName (TT := ThreePhase) true sampleModel 2 = Returns "conti_o" /\
  Build.eqWeight (TT := ThreePhase) true sampleModel 0 9 =
    Returns (sampleMolarMass 9) /\
  Build.eqWeight (TT := ShiftedThreePhase) true sampleModel 0 (-2147483648) =
    Returns (sampleMolarMass 2147483646) /\
  Build.eqWeight (TT := ShiftedThreePhase) false sampleModel 0 (-2147483648) =
    Aborts AssertionFailed.
Proof.
  split; [| split; [| split; [| split]]].
  - apply (proj1 (proj2 (ndebug_methods (TT := ThreePhase) sampleModel 0 7))).
    reflexivity.
  - apply (proj1 (proj2 (proj2 (ndebug_methods (TT := ThreePhase) sampleModel 0 2)))).
    reflexivity.
  - apply (proj1 (proj2 (proj2 (proj2 (proj2 (proj2
             (ndebug_methods (TT := ThreePhase) sampleModel 0 9))))))).
    unfold Build.is_int. simpl. lia.
  - apply (proj1 (proj2 (proj2 (proj2 (proj2 (proj2 (proj2
             (ndebug_methods (TT := ShiftedThreePhase) sampleModel 0
                (-2147483648))))))))); unfold Build.is_int; simpl; lia.
  - rewrite (proj2 (proj2 (proj2 (proj2 (proj2 (proj2 (proj2 (proj2 (proj2
               (ndebug_methods (TT := ShiftedThreePhase) sampleModel 0
                  (-2147483648))))))))))); [reflexivity | | | |];
      unfold Build.is_int; simpl; lia.
Defined.

(** ** The transport test *)

Import TestFVTransport.

(** The only status the [try] block returns is 0. *)
Lemma main_try_status (c : Collaborators) (out : string) (status : Z) :
  main_try c = Returns (out, status) -> status = 0.
Proof.
  unfold main_try.
  destruct (construct c _ _) as [w | f]; simpl; [| discriminate].
  destruct (TimeLoop_execute c _ w) as [w' | f]; simpl; [| discriminate].
  destruct (printvector c w') as [o | f]; simpl; [| discriminate].
  intros H. injection H as _ H. now symmetry.
Qed.

(** C7, as the code has it: every exception that leaves the [try] block is
    caught; a Dune exception is reported as "Dune reported error: " followed
    by the exception, any other one as "Unknown exception thrown!", and the
    two reports differ; the process ends with status zero after either
    handler, as it does when the run completes. *)
Theorem main_exception_boundary (c : Collaborators) :
  (forall e, main_try c = Aborts (DuneException e) ->
     main c = mkRun "" ("Dune reported error: " ++ e ++ endl) (Exit 0)) /\
  (main_try c = Aborts UnknownException ->
     main c = mkRun "" ("Unknown exception thrown!" ++ endl) (Exit 0)) /\
  (forall e, ("Dune reported error: " ++ e ++ endl)%string <>
             ("Unknown exception thrown!" ++ endl)%string) /\
  (forall out status, main_try c = Returns (out, status) ->
     main c = mkRun out "" (Exit 0)) /\
  (threw c \/ completed c -> run_end (main c) = Exit 0).
Proof.
  unfold main.
  split; [| split; [| split; [| split]]].
  - intros e H. now rewrite H.
  - intros H. now rewrite H.
  - intros e H. discriminate H.
  - intros out status H. rewrite (main_try_status c out status H) in H.
    now rewrite H.
  - intros [[[e H] | H] | [[out status] H]].
    + now rewrite H.
    + now rewrite H.
    + rewrite (main_try_status c out status H) in H. now rewrite H.
Qed.

(** The calls of the [try] block, on the reference set-up. *)
Lemma main_try_calls (c : Collaborators) :
  main_try c =
    (world <- construct c referenceGrid referenceVariables ;;
     world <- TimeLoop_execute c referenceTimeLoop world ;;
     out <- printvector c world ;;
     Returns (out, 0)).
Proof.
  reflexivity.
Qed.

(** C9: [main] builds and runs the reference run from exactly these
    values: the [try] block returns, with status 0 and the output [out], if
    and only if the objects built from 16 cells by 1 on the domain from
    (0, 0) to (600, 300), the initial saturation 0 and the velocity
    (1/6 * 1e-6, 0) are built, the time loop from 0 to 4e9 with an output
    every 10 steps, CFL factor 0.99 and maximum step 1e100 executes on them,
    and [printvector] writes [out] for what the loop returned. *)
Theorem main_runs_reference_setup (c : Collaborators) (out : string) (status : Z) :
  main_try c = Returns (out, status) <->
  status = 0 /\
  exists w w',
    construct c (mkGridArgs [16; 1] [0; 0]%float [600; 300]%float)
                (mkVariableArgs 0%float [1 / 6 * 1e-6; 0]%float) = Returns w /\
    TimeLoop_execute c
      (mkTimeLoopArgs 0%float 4e9%float "timeloop" 10 0.99%float
                      1e100%float 1e100%float) w = Returns w' /\
    printvector c w' = Returns out.
Proof.
  rewrite main_try_calls.
  unfold referenceGrid, referenceVariables, referenceTimeLoop, bind.
  destruct (construct c _ _) as [w | g] eqn:Ec.
  - destruct (TimeLoop_execute c _ w) as [w' | g] eqn:Ee.
    + destruct (printvector c w') as [o | g] eqn:Ep.
      * split.
        -- intros H. apply Returns_inj in H. injection H as -> <-.
           split; [reflexivity |]. exists w, w'. repeat split; assumption.
        -- intros [-> [w0 [w1 [Hw [Hw1 Ho]]]]].
           apply Returns_inj in Hw. subst w0. rewrite Ee in Hw1.
           apply Returns_inj in Hw1. subst w1. rewrite Ep in Ho.
           apply Returns_inj in Ho. subst o. reflexivity.
      * split; [discriminate |].
        intros [_ [w0 [w1 [Hw [Hw1 Ho]]]]].
        apply Returns_inj in Hw. subst w0. rewrite Ee in Hw1.
        apply Returns_inj in Hw1. subst w1. rewrite Ep in Ho. discriminate Ho.
    + split; [discriminate |].
      intros [_ [w0 [w1 [Hw [Hw1 _]]]]].
      apply Returns_inj in Hw. subst w0. rewrite Ee in Hw1. discriminate Hw1.
  - split; [discriminate |].
    intros [_ [w0 [w1 [Hw _]]]]. discriminate Hw.
Qed.

Lemma main_runs_reference_setup_witness :
  main_try (sampleCollaborators None) = Returns ("saturation", 0).
Proof.
  apply (proj2 (main_runs_reference_setup (sampleCollaborators None)
                  "saturation" 0)).
  split; [reflexivity |].
  exists 0%nat, 1%nat. repeat split.
Defined.

(** A Dune exception thrown while the grid is built: the exception escapes
    to the boundary of [main], and the process still ends with status
    zero. *)
Lemma main_exit_zero_after_exception :
  threw (sampleCollaborators (Some (DuneException "grid"))) /\
  ~ completed (sampleCollaborators (Some (DuneException "grid"))) /\
  run_end (main (sampleCollaborators (Some (DuneException "grid")))) = Exit 0.
Proof.
  split; [| split].
  - left. exists "grid". reflexivity.
  - intros [r H]. discriminate H.
  - reflexivity.
Qed.

Lemma main_exception_boundary_witness :
  main (sampleCollaborators (Some (DuneException "grid"))) =
    mkRun "" ("Dune reported error: grid" ++ endl) (Exit 0) /\
  main (sampleCollaborators (Some UnknownException)) =
    mkRun "" ("Unknown exception thrown!" ++ endl) (Exit 0) /\
  main (sampleCollaborators None) = mkRun "saturation" "" (Exit 0).
Proof.
  split; [| split].
  - apply (proj1 (main_exception_boundary
                    (sampleCollaborators (Some (DuneException "grid")))) "grid").
    reflexivity.
  - apply (proj1 (proj2 (main_exception_boundary
                           (sampleCollaborators (Some UnknownException))))).
    reflexivity.
  - apply (proj1 (proj2 (proj2 (proj2 (main_exception_boundary
                                         (sampleCollaborators None)))))
             "saturation" 0).
    reflexivity.
Defined.

(** The values of the reference set-up: the domain is 600 by 300, the
    velocity in x evaluates to the double 1.6666666666666665e-07, and the CFL
    factor is below 1. *)
Lemma reference_values :
  referenceGrid = mkGridArgs [16; 1] [0; 0]%float [600; 300]%float /\
  map (fun lh => (snd lh - fst lh)%float)
      (combine (grid_L referenceGrid) (grid_H referenceGrid)) = [600; 300]%float /\
  var_velocity referenceVariables = [1.6666666666666665e-07; 0]%float /\
  PrimFloat.ltb (tl_cFLFactor referenceTimeLoop) 1 = true /\
  tl_modulo referenceTimeLoop = 10.
Proof.
  repeat split; reflexivity.
Qed.

(** ** Failures of [main] *)

(** The failure that ends the [try] block is that of the first collaborator
    to fail, in the order of the calls: the construction of the objects from
    the reference grid and variables, then the execution of the reference
    time loop on what was built, then the printing of what the loop
    returned. *)
Theorem main_try_first_failure (c : Collaborators) (f : Failure) :
  main_try c = Aborts f <->
  construct c referenceGrid referenceVariables = Aborts f \/
  (exists w, construct c referenceGrid referenceVariables = Returns w /\
     (TimeLoop_execute c referenceTimeLoop w = Aborts f \/
      exists w', TimeLoop_execute c referenceTimeLoop w = Returns w' /\
                 printvector c w' = Aborts f)).
Proof.
  rewrite main_try_calls. unfold bind.
  destruct (construct c referenceGrid referenceVariables) as [w | g] eqn:Ec.
  - destruct (TimeLoop_execute c referenceTimeLoop w) as [w' | g] eqn:Ee.
    + destruct (printvector c w') as [out | g] eqn:Ep.
      * split; [discriminate |].
        intros [H | [w0 [Hw [H | [w1 [Hw1 H]]]]]]; try discriminate H.
        -- apply Returns_inj in Hw. subst w0. rewrite Ee in H. discriminate H.
        -- apply Returns_inj in Hw. subst w0. rewrite Ee in Hw1.
           apply Returns_inj in Hw1. subst w1. rewrite Ep in H. discriminate H.
      * split.
        -- intros H. injection H as ->. right. exists w. split; [reflexivity |].
           right. exists w'. split; [exact Ee | exact Ep].
        -- intros [H | [w0 [Hw [H | [w1 [Hw1 H]]]]]]; try discriminate H.
           ++ apply Returns_inj in Hw. subst w0. rewrite Ee in H. discriminate H.
           ++ apply Returns_inj in Hw. subst w0. rewrite Ee in Hw1.
              apply Returns_inj in Hw1. subst w1. rewrite Ep in H.
              injection H as ->. reflexivity.
    + split.
      * intros H. injection H as ->. right. exists w. split; [reflexivity |].
        left. exact Ee.
      * intros [H | [w0 [Hw [H | [w1 [Hw1 H]]]]]]; try discriminate H.
        -- apply Returns_inj in Hw. subst w0. rewrite Ee in H.
           injection H as ->. reflexivity.
        -- apply Returns_inj in Hw. subst w0. rewrite Ee in Hw1. discriminate Hw1.
  - split.
    + intros H. injection H as ->. now left.
    + intros [H | [w0 [Hw _]]]; [injection H as ->; reflexivity | discriminate Hw].
Qed.

Lemma main_try_first_failure_witness :
  main_try (sampleCollaborators (Some (DuneException "grid"))) =
    Aborts (DuneException "grid").
Proof.
  apply (proj2 (main_try_first_failure
                  (sampleCollaborators (Some (DuneException "grid")))
                  (DuneException "grid"))).
  left. reflexivity.
Defined.

(** ** The transport time loop *)

Import TimeLoop.

Local Open Scope Q_scope.

Lemma faceLimit_nonneg (f : Face) (a : Q) :
  0 <= poreVolume f -> faceLimit f = Some a -> 0 <= a.
Proof.
  unfold faceLimit. intros Hpv.
  destruct (Qeq_bool (flux f) 0) eqn:E; [discriminate |].
  intros H. injection H as <-.
  apply Qeq_bool_neq in E.
  assert (Hpos : 0 < Qabs (flux f)).
  { destruct (Qlt_le_dec 0 (Qabs (flux f))) as [Hlt | Hle]; [exact Hlt |].
    exfalso. apply E. apply Qabs_Qle_condition in Hle. lra. }
  apply Qle_shift_div_l; [exact Hpos | lra].
Qed.

(** [minOverFaces] is a lower bound of the limits of the faces ... *)
Lemma minOverFaces_le (fs : list Face) (m : Q) :
  minOverFaces fs = Some m ->
  forall f a, In f fs -> faceLimit f = Some a -> m <= a.
Proof.
  revert m. induction fs as [| g fs IH]; simpl; intros m Hm f a Hin Ha.
  - contradiction.
  - destruct (faceLimit g) as [b |] eqn:Eg;
      destruct (minOverFaces fs) as [r |] eqn:Er.
    + injection Hm as <-. destruct Hin as [-> | Hin].
      * rewrite Ha in Eg. injection Eg as <-. apply Q.le_min_l.
      * eapply Qle_trans; [apply Q.le_min_r | exact (IH r eq_refl f a Hin Ha)].
    + injection Hm as <-. destruct Hin as [-> | Hin].
      * rewrite Ha in Eg. injection Eg as <-. apply Qle_refl.
      * exfalso. clear IH. revert Er Ha. revert Hin.
        induction fs as [| h fs IH2]; simpl; [contradiction |].
        intros [-> | Hin] Er Ha.
        -- rewrite Ha in Er. destruct (minOverFaces fs); discriminate.
        -- destruct (faceLimit h); [destruct (minOverFaces fs); discriminate |].
           exact (IH2 Hin Er Ha).
    + destruct Hin as [-> | Hin]; [congruence |].
      exact (IH m Hm f a Hin Ha).
    + discriminate.
Qed.

(** ... and the limit of one of them. *)
Lemma minOverFaces_attained (fs : list Face) (m : Q) :
  minOverFaces fs = Some m ->
  exists f a, In f fs /\ faceLimit f = Some a /\ a == m.
Proof.
  revert m. induction fs as [| g fs IH]; simpl; intros m Hm; [discriminate |].
  destruct (faceLimit g) as [b |] eqn:Eg;
    destruct (minOverFaces fs) as [r |] eqn:Er.
  - injection Hm as <-.
    destruct (Q.min_spec b r) as [[_ Hmin] | [_ Hmin]].
    + exists g, b. split; [now left |]. split; [exact Eg | now symmetry].
    + destruct (IH r eq_refl) as [f [a [Hin [Ha Har]]]].
      exists f, a. split; [now right |]. split; [exact Ha |].
      rewrite Hmin. exact Har.
  - injection Hm as <-. exists g, b. split; [now left |]. split; [exact Eg | reflexivity].
  - destruct (IH m Hm) as [f [a [Hin [Ha Har]]]].
    exists f, a. split; [now right |]. split; assumption.
  - discriminate.
Qed.

Lemma minOverFaces_nonneg (fs : list Face) (m : Q) :
  (forall f, In f fs -> 0 <= poreVolume f) ->
  minOverFaces fs = Some m -> 0 <= m.
Proof.
  intros Hpv Hm.
  destruct (minOverFaces_attained fs m Hm) as [f [a [Hin [Ha Har]]]].
  rewrite <- Har. exact (faceLimit_nonneg f a (Hpv f Hin) Ha).
Qed.

Section TimeLoopFacts.

Variable Vars : Type.
Variable faces : Vars -> list Face.
Variable update : Vars -> Q -> Vars.
Variable valid : Vars -> bool.
Variable cfg : Config.

(** The configuration surface: a CFL factor that is a safety margin below
    1, a maximum step size that is no negative number; and the geometry: no
    negative pore volume. *)
Hypothesis cfl_margin : 0 <= cflFactor cfg < 1.
Hypothesis maxDT_nonneg : 0 <= maxDT cfg.
Hypothesis poreVolume_nonneg :
  forall v f, In f (faces v) -> 0 <= poreVolume f.

Lemma candidateStep_ok (v : Vars) :
  step_ok cfg (candidateStep (cflFactor cfg) (maxDT cfg) (faces v)) (faces v).
Proof.
  unfold step_ok, cfl_bounded, candidateStep.
  destruct (minOverFaces (faces v)) as [m |] eqn:Em.
  - pose proof (minOverFaces_nonneg (faces v) m (poreVolume_nonneg v) Em) as Hm.
    split; [| split].
    + apply Q.min_glb; [| exact maxDT_nonneg].
      apply Qmult_le_0_compat; [apply cfl_margin | exact Hm].
    + intros m' Hm'. injection Hm' as <-. apply Q.le_min_l.
    + apply Q.le_min_r.
  - split; [exact maxDT_nonneg |]. split; [discriminate | apply Qle_refl].
Qed.

Lemma halved_step_ok (dt : Q) (fs : list Face) :
  step_ok cfg dt fs -> step_ok cfg (dt / 2) fs.
Proof.
  unfold step_ok, cfl_bounded. intros [H0 [Hcfl Hmax]].
  assert (Hhalf : dt / 2 == dt * (1 # 2)) by reflexivity.
  split; [rewrite Hhalf; lra |]. split; [| rewrite Hhalf; lra].
  intros m Hm. specialize (Hcfl m Hm). rewrite Hhalf. lra.
Qed.

Lemma attempt_invariant (s : State Vars) (dt : Q) :
  Forall (fun a => step_ok cfg (acc_step a) (acc_faces a)) (accepted s) ->
  step_ok cfg dt (faces (vars s)) ->
  loop_invariant Vars faces cfg (attempt Vars faces update valid cfg s dt).
Proof.
  intros Hacc Hdt. unfold loop_invariant, attempt.
  destruct (valid (update (vars s) dt)); simpl.
  - split; [| discriminate]. constructor; [exact Hdt | exact Hacc].
  - split; [exact Hacc | intros _; exact Hdt].
Qed.

Lemma step_invariant (s : State Vars) :
  loop_invariant Vars faces cfg s ->
  loop_invariant Vars faces cfg (step Vars faces update valid cfg s).
Proof.
  intros [Hacc Hrej]. unfold step.
  destruct (mode s) eqn:Em.
  - destruct (Qle_bool (tEnd cfg) (currentTime s)).
    + split; [exact Hacc | discriminate].
    + apply attempt_invariant; [exact Hacc | apply candidateStep_ok].
  - apply attempt_invariant; [exact Hacc |].
    apply halved_step_ok, Hrej. reflexivity.
  - split; [exact Hacc | rewrite Em; discriminate].
Qed.

Lemma run_invariant (n : nat) (s : State Vars) :
  loop_invariant Vars faces cfg s ->
  loop_invariant Vars faces cfg (run Vars faces update valid cfg n s).
Proof.
  revert s. induction n as [| n IH]; simpl; intros s Hs; [exact Hs |].
  apply IH, step_invariant, Hs.
Qed.

(** C6: every step the loop accepts, after any number of transitions from
    its initial state, is at most [cflFactor] times the minimum over the
    faces of [poreVolume / |flux|], with [cflFactor] below 1, so that the step
    is less than that minimum where it is positive, and is at most
    [maxDT]. *)
Theorem accepted_steps_cfl_bounded (n : nat) (v0 : Vars) :
  Forall (fun a =>
            step_bounded cfg a /\
            forall m, minOverFaces (acc_faces a) = Some m ->
                      0 < m -> acc_step a < m)
         (accepted (run Vars faces update valid cfg n (initial Vars cfg v0))).
Proof.
  assert (Hinit : loop_invariant Vars faces cfg (initial Vars cfg v0)).
  { split; [constructor | discriminate]. }
  destruct (run_invariant n _ Hinit) as [Hacc _].
  eapply Forall_impl; [| exact Hacc].
  intros a [H0 [Hcfl Hmax]]. split; [split; assumption |].
  intros m Hm Hpos. specialize (Hcfl m Hm).
  apply Qle_lt_trans with (cflFactor cfg * m); [exact Hcfl |].
  assert (Hlt : cflFactor cfg < 1) by apply cfl_margin.
  setoid_replace m with (1 * m) at 2 by ring.
  apply Qmult_lt_compat_r; assumption.
Qed.

End TimeLoopFacts.

Lemma sampleFaces_poreVolume_nonneg (v : Q) (f : Face) :
  In f (sampleFaces v) -> 0 <= poreVolume f.
Proof.
  intros [<- | [<- | [<- | []]]]; discriminate.
Defined.

(** The sample loop accepts a first step of 99/400, the CFL factor 99/100
    times the least limit 1/4, rejects the next candidate twice and accepts
    a quarter of it. *)
Lemma sampleRun_steps :
  map acc_step (accepted (sampleRun 4)) = [99 # 1600; 99 # 400] /\
  minOverFaces (sampleFaces 0) = Some (Qmin 2 (1 / Qabs (-4))) /\
  map (fun s => mode s) [sampleRun 2; sampleRun 3; sampleRun 4] =
    [STEP_REJECTED; STEP_REJECTED; RUNNING].
Proof.
  repeat split; reflexivity.
Qed.

Lemma accepted_steps_cfl_bounded_witness :
  Forall (fun a =>
            step_bounded sampleConfig a /\
            forall m, minOverFaces (acc_faces a) = Some m ->
                      0 < m -> acc_step a < m)
         (accepted (sampleRun 4)).
Proof.
  apply (accepted_steps_cfl_bounded Q sampleFaces sampleUpdate sampleValid
           sampleConfig).
  - split; discriminate || reflexivity.
  - discriminate.
  - exact sampleFaces_poreVolume_nonneg.
Defined.
